(** * East Group territory dashboard: loading, filtering and KPI pipeline

    A shallow embedding of [dashboard.py].  The script is a Streamlit page:
    it loads the property table from PostGIS ([load_data_from_db]), halts
    when the table is empty, filters it with three sidebar widgets and
    renders three KPI cards, a map and a table.

    Modelling decisions.
    - A (Geo)DataFrame is the ordered list of its rows; a column is the
      list of one field; the empty frame [geopandas.GeoDataFrame()] is [[]].
    - The store schema is not in the script: column types follow the
      script's use of them (text city, integer square footage and clear
      height, nullable WKT text).
    - A coordinate is the float64 the WKT reader hands over, written as
      the rational it denotes, with NaN kept apart ([pyfloat]); the script
      does no arithmetic on coordinates.
    - The square-footage column is int64: its sum wraps around.  The
      float64 values numpy computes from it (the mean, the division by
      1_000_000) are named, not evaluated ([np_float]): the rounding is
      the library's.
    - Python objects live in an object store ([heap]) where a statement
      can alias or copy them; [df[mask]] and [.copy()] allocate.
    - Calls that can raise run in a small writer/exception monad [py]:
      the emitted events are [print] lines and Streamlit elements.
    - The store reply and GEOS's WKT reader are the environment: the reply
      is an argument of the loader, the reader a function parameter.  So
      are the widget, chart and table calls of the page ([frontend]),
      each of which returns or raises.
      Streamlit's [st.cache_data] wrapper is not modelled: one execution of
      the function body is. *)

From Stdlib Require Import ZArith QArith String List Lia Sorted.
From stdpp Require Import base option list gmap strings.

Local Open Scope string_scope.
Local Open Scope list_scope.
Local Open Scope Z_scope.

(** ** Values *)

(** A float64 as the script sees it: a number or NaN. *)
Inductive pyfloat : Type :=
  | Fin (q : Q)
  | NaN.

(** A raised Python exception ([Exception] subclass): class name and
    the text [str(e)] that an f-string interpolates. *)
Record exn : Type := Exn { exn_type : string; exn_msg : string }.

(** A shapely geometry, as far as the script can tell them apart:
    [geom_type == "Point"] with its coordinates, or another type. *)
Inductive geometry : Type :=
  | Point (x y : pyfloat)
  | OtherGeometry (geom_type : string).

(** One row of [SELECT *, ST_AsText(coordinates) as wkt_coordinates
    FROM territory_properties], as [pd.read_sql] returns it. *)
Record Row : Type := mkRow {
  address : string;
  city : string;
  state : string;
  zip_code : string;
  square_footage : Z;
  clear_height_ft : Z;
  dock_doors : Z;
  year_built : Z;
  last_sale_price : option Q;
  current_lease_rate_psf : option Q;
  is_vacant : bool;
  wkt_coordinates : option string
}.

(** One row of the GeoDataFrame the loader returns: the store's columns,
    the [geometry] column and the derived [lat] and [lon] columns. *)
Record GeoRow : Type := mkGeoRow {
  row : Row;
  geometry_col : option geometry;
  lat : pyfloat;
  lon : pyfloat
}.

Abbreviation DataFrame := (list Row).
Abbreviation GeoDataFrame := (list GeoRow).

(** [df.empty] *)
Definition empty_frame {A : Type} (df : list A) : bool :=
  match df with [] => true | _ :: _ => false end.

(** ** Filter engine (lines 114-118) *)

(** The values the three sidebar widgets return. *)
Record FilterCriteria : Type := mkCriteria {
  selected_cities : list string;
  selected_sqft : Z * Z;
  selected_height : list Z
}.

(** [Series.isin(values)]: element-wise membership mask. *)
Definition isin {A : Type} (eqb : A -> A -> bool) (col values : list A)
  : list bool :=
  map (fun v => existsb (eqb v) values) col.

(** [Series.between(left, right)]: both ends inclusive by default. *)
Definition between (col : list Z) (left right : Z) : list bool :=
  map (fun v => (left <=? v) && (v <=? right))%bool col.

(** [mask1 & mask2] on two boolean Series over the same index. *)
Definition mask_and (m1 m2 : list bool) : list bool :=
  zip_with andb m1 m2.

(** [df[mask]]: the rows whose mask entry is True, in frame order. *)
Fixpoint getitem_mask {A : Type} (df : list A) (mask : list bool) : list A :=
  match df, mask with
  | r :: df', b :: mask' =>
      if b then r :: getitem_mask df' mask' else getitem_mask df' mask'
  | _, _ => []
  end.

(** The mask of lines 115-117. *)
Definition filter_mask (geo_df : GeoDataFrame) (c : FilterCriteria)
  : list bool :=
  mask_and
    (mask_and
       (isin String.eqb (map (fun r => city (row r)) geo_df)
          (selected_cities c))
       (between (map (fun r => square_footage (row r)) geo_df)
          (fst (selected_sqft c)) (snd (selected_sqft c))))
    (isin Z.eqb (map (fun r => clear_height_ft (row r)) geo_df)
       (selected_height c)).

(** The entry of that mask at one row. *)
Definition row_mask (c : FilterCriteria) (r : GeoRow) : bool :=
  (existsb (String.eqb (city (row r))) (selected_cities c)
   && ((fst (selected_sqft c) <=? square_footage (row r))
       && (square_footage (row r) <=? snd (selected_sqft c)))
   && existsb (Z.eqb (clear_height_ft (row r))) (selected_height c))%bool.

(** The value of [filtered_df]. *)
Definition apply_filters (geo_df : GeoDataFrame) (c : FilterCriteria)
  : GeoDataFrame :=
  getitem_mask geo_df (filter_mask geo_df c).

(** The retention rule in the specification's words: city in the city
    set, square footage within the inclusive range, clear height in the
    height set. *)
Definition Retained (c : FilterCriteria) (r : GeoRow) : Prop :=
  city (row r) ∈ selected_cities c
  ∧ (fst (selected_sqft c) <= square_footage (row r)
     ∧ square_footage (row r) <= snd (selected_sqft c))
  ∧ clear_height_ft (row r) ∈ selected_height c.

#[global] Instance Retained_dec c r : Decision (Retained c r).
Proof. unfold Retained. apply _. Defined.

(** The filter of the specification: the retained records, in order. *)
Definition apply_filters_spec (t : GeoDataFrame) (c : FilterCriteria)
  : GeoDataFrame :=
  filter (Retained c) t.

(** ** Object store *)

(** Frames are Python objects: the store maps an object identity to the
    frame's current value; [next_id] is the next fresh identity. *)
Record heap : Type := mkHeap {
  frames : gmap nat GeoDataFrame;
  next_id : nat
}.

Definition heap_wf (h : heap) : Prop :=
  ∀ l df, frames h !! l = Some df → (l < next_id h)%nat.

Definition alloc (df : GeoDataFrame) (h : heap) : nat * heap :=
  (next_id h,
   {| frames := <[next_id h := df]> (frames h); next_id := S (next_id h) |}).

(** [obj[mask]] builds a new frame object. *)
Definition getitem_mask_obj (l : nat) (mask : list bool) (h : heap)
  : option (nat * heap) :=
  df ← frames h !! l; Some (alloc (getitem_mask df mask) h).

(** [obj.copy()] builds a new frame object with the same rows. *)
Definition copy_obj (l : nat) (h : heap) : option (nat * heap) :=
  df ← frames h !! l; Some (alloc df h).

(** The assignment of lines 114-118, [geo_df] being the identity bound to
    the variable of that name; the result is the identity bound to
    [filtered_df].  [None] is a dangling identity. *)
Definition filter_stmt (geo_df : nat) (c : FilterCriteria) (h : heap)
  : option (nat * heap) :=
  df ← frames h !! geo_df;
  '(selected, h1) ← getitem_mask_obj geo_df (filter_mask df c) h;
  copy_obj selected h1.

(** ** Aggregator (lines 128-132) *)

(** An integer brought back into the int64 range, as two's-complement
    arithmetic does. *)
Definition wrap64 (z : Z) : Z := (z + 2 ^ 63) mod 2 ^ 64 - 2 ^ 63.

(** [Series.sum()] of an int64 column: an int64 accumulator. *)
Definition series_sum (col : list Z) : Z :=
  foldr (fun v acc => wrap64 (v + acc)) 0 col.

(** A float64 that numpy computes from the int64 column; the value is
    the library's, the model keeps which computation it is. *)
Inductive np_float : Type :=
  | NpNaN
  | NpMean (col : list Z)
  | NpTrueDiv (a b : Z).

(** [Series.mean()]: NaN on an empty column, numpy's float64 mean of the
    values otherwise. *)
Definition series_mean (col : list Z) : np_float :=
  match col with
  | [] => NpNaN
  | _ :: _ => NpMean col
  end.

(** What a KPI card shows: a formatted number or a literal text. *)
Inductive display : Type :=
  | FmtInt (fmt : string) (n : Z)
  | FmtFloat (fmt : string) (x : np_float) (suffix : string)
  | Literal (s : string).

Record Metrics : Type := mkMetrics {
  count : nat;
  total_square_footage : Z;
  average_square_footage : np_float;
  average_shown : display
}.

(** [len(filtered_df)], [filtered_df['square_footage'].sum()], [avg_sf]
    and the text of the third card. *)
Definition summarize (filtered_df : GeoDataFrame) : Metrics :=
  let sqft := map (fun r => square_footage (row r)) filtered_df in
  let avg_sf := series_mean sqft in
  {| count := length filtered_df;
     total_square_footage := series_sum sqft;
     average_square_footage := avg_sf;
     average_shown :=
       if (0 <? length filtered_df)%nat then FmtFloat ",.0f" avg_sf ""
       else Literal "N/A" |}.

(** ** Effects *)

Inductive event : Type :=
  | Print (line : string)
  | StWarning (body : string)
  | StError (body : string)
  | StMetric (label : string) (value : display)
  | StPlotlyChart (data : GeoDataFrame)
  | StDataframe (data : GeoDataFrame).

(** How a call ends. *)
Inductive outcome (A : Type) : Type :=
  | Returned (a : A)
  | Raised (e : exn).
Arguments Returned {A} a.
Arguments Raised {A} e.

(** A Python computation: the events it emitted, then how it ended. *)
Definition py (A : Type) : Type := list event * outcome A.

Definition py_ret {A : Type} (a : A) : py A := ([], Returned a).

Definition py_bind {A B : Type} (m : py A) (k : A -> py B) : py B :=
  match m with
  | (ev, Returned a) => let '(ev', o) := k a in (ev ++ ev', o)
  | (ev, Raised e) => (ev, Raised e)
  end.

Definition py_raise {A : Type} (e : exn) : py A := ([], Raised e).

Definition emit (e : event) : py unit := ([e], Returned tt).

(** [try: body / except Exception as e: handler e] *)
Definition try_except {A : Type} (body : py A) (handler : exn -> py A) : py A :=
  match body with
  | (ev, Returned a) => (ev, Returned a)
  | (ev, Raised e) => let '(ev', o) := handler e in (ev ++ ev', o)
  end.

#[global] Instance py_mret : MRet py := @py_ret.
#[global] Instance py_mbind : MBind py := fun A B k m => py_bind m k.

(** ** Geometry decoding (lines 60-67) *)

(** GEOS's WKT reader on one text: a geometry, or the exception raised. *)
Definition wkt_reader : Type := string -> outcome geometry.

(** [GeoSeries.from_wkt(series)]: missing values stay missing, every
    other text goes through the reader; the first text the reader
    rejects raises. *)
Fixpoint from_wkt (reader : wkt_reader) (col : list (option string))
  : py (list (option geometry)) :=
  match col with
  | [] => mret []
  | None :: col' =>
      gs ← from_wkt reader col'; mret (None :: gs)
  | Some text :: col' =>
      match reader text with
      | Raised e => py_raise e
      | Returned g => gs ← from_wkt reader col'; mret (Some g :: gs)
      end
  end.

Definition is_point (g : option geometry) : bool :=
  match g with
  | Some (OtherGeometry _) => false
  | _ => true
  end.

(** [GeoSeries.x] and [GeoSeries.y]: defined when every geometry that is
    present is a point, NaN where the geometry is missing. *)
Definition coord_x (g : option geometry) : pyfloat :=
  match g with Some (Point x _) => x | _ => NaN end.

Definition coord_y (g : option geometry) : pyfloat :=
  match g with Some (Point _ y) => y | _ => NaN end.

Definition point_only (axis : string) : exn :=
  Exn "ValueError" (axis +:+ " attribute access only provided for Point geometries").

Definition geoseries_x (gs : list (option geometry)) : py (list pyfloat) :=
  if forallb is_point gs then mret (map coord_x gs)
  else py_raise (point_only "x").

Definition geoseries_y (gs : list (option geometry)) : py (list pyfloat) :=
  if forallb is_point gs then mret (map coord_y gs)
  else py_raise (point_only "y").

(** [geopandas.GeoDataFrame(df, geometry=series, crs=...)]: the rows of
    [df], each with its geometry. *)
Definition with_geometry (df : DataFrame) (gs : list (option geometry))
  : list (Row * option geometry) :=
  zip df gs.

(** [gdf['lat'] = lats] then [gdf['lon'] = lons].  Both columns are read
    off [gdf.geometry], so the three lengths agree. *)
Fixpoint assign_lat_lon (gdf : list (Row * option geometry))
    (lats lons : list pyfloat) : GeoDataFrame :=
  match gdf, lats, lons with
  | (r, g) :: gdf', la :: lats', lo :: lons' =>
      mkGeoRow r g la lo :: assign_lat_lon gdf' lats' lons'
  | _, _, _ => []
  end.

(** What a store row becomes once its geometry text is read: a missing
    text gives a missing geometry and NaN coordinates; the latitude is the
    point's y, the longitude its x. *)
Definition decode_text (reader : wkt_reader) (text : option string)
  : option geometry :=
  match text with
  | None => None
  | Some s =>
      match reader s with Returned g => Some g | Raised _ => None end
  end.

Definition decoded_row (reader : wkt_reader) (r : Row) : GeoRow :=
  let g := decode_text reader (wkt_coordinates r) in
  mkGeoRow r g (coord_y g) (coord_x g).

(** ** Data loader (lines 35-74) *)

(** [pd.read_sql(query, db_engine)]: the store's reply. *)
Definition read_sql (reply : outcome DataFrame) : py DataFrame := ([], reply).

(** The [try] block, lines 44-70. *)
Definition load_body (reader : wkt_reader) (reply : outcome DataFrame)
  : py GeoDataFrame :=
  df ← read_sql reply;
  if empty_frame df then
    emit (StWarning "No data returned from the database.") ;;
    mret []
  else
    gs ← from_wkt reader (map wkt_coordinates df);
    let gdf := with_geometry df gs in
    if negb (empty_frame gdf) then
      lats ← geoseries_y (map snd gdf);
      lons ← geoseries_x (map snd gdf);
      emit (Print "Data loaded and converted successfully.") ;;
      mret (assign_lat_lon gdf lats lons)
    else
      emit (Print "Data loaded and converted successfully.") ;;
      mret [].

(** The [except Exception as e] block, lines 72-74. *)
Definition load_handler (e : exn) : py GeoDataFrame :=
  emit (StError ("An error occurred while loading or processing data: "
                 +:+ exn_msg e)) ;;
  mret [].

Definition load_data_from_db (reader : wkt_reader) (reply : outcome DataFrame)
  : py GeoDataFrame :=
  emit (Print "Loading data from database using robust WKT method...") ;;
  try_except (load_body reader reply) load_handler.

(** ** Sidebar widgets (lines 83-111) *)

(** [Series.unique()]: the distinct values, in order of first appearance;
    [seen] holds the values met so far. *)
Fixpoint unique_from {A : Type} (eqb : A -> A -> bool) (seen col : list A)
  : list A :=
  match col with
  | [] => []
  | v :: col' =>
      if existsb (eqb v) seen then unique_from eqb seen col'
      else v :: unique_from eqb (v :: seen) col'
  end.

Definition unique {A : Type} (eqb : A -> A -> bool) (col : list A) : list A :=
  unique_from eqb [] col.

(** [sorted(values)]: ascending and stable.  On text, [String.leb]
    compares byte by byte, which on UTF-8 is Python's code-point order. *)
Fixpoint insert_sorted {A : Type} (leb : A -> A -> bool) (v : A) (l : list A)
  : list A :=
  match l with
  | [] => [v]
  | w :: l' => if leb v w then v :: l else w :: insert_sorted leb v l'
  end.

Definition sorted {A : Type} (leb : A -> A -> bool) (l : list A) : list A :=
  foldr (insert_sorted leb) [] l.

(** [Series.min()] and [Series.max()] of a column that starts with [v]. *)
Definition series_min (v : Z) (col : list Z) : Z := foldr Z.min v col.
Definition series_max (v : Z) (col : list Z) : Z := foldr Z.max v col.

(** The options and bounds the three widgets are built from. *)
Record Sidebar : Type := mkSidebar {
  cities : list string;
  min_sqft : Z;
  max_sqft : Z;
  heights : list Z
}.

(** Lines 87, 95-96 and 106.  The only empty frame the loader returns is
    the column-less [geopandas.GeoDataFrame()], where [geo_df['city']] is
    a KeyError; [int(...)] and [astype(int)] leave integers as they are. *)
Definition sidebar_options (geo_df : GeoDataFrame) : outcome Sidebar :=
  match geo_df with
  | [] => Raised (Exn "KeyError" "'city'")
  | r :: geo_df' =>
      let sqft := map (fun r => square_footage (row r)) geo_df' in
      Returned
        {| cities := sorted String.leb
                       (unique String.eqb (map (fun r => city (row r)) geo_df));
           min_sqft := series_min (square_footage (row r)) sqft;
           max_sqft := series_max (square_footage (row r)) sqft;
           heights := sorted Z.leb
                        (unique Z.eqb
                           (map (fun r => clear_height_ft (row r)) geo_df)) |}
  end.

(** What the widgets return before the user touches them: [default=cities],
    [value=(min_sqft, max_sqft)], [default=heights]. *)
Definition default_selection (s : Sidebar) : FilterCriteria :=
  mkCriteria (cities s) (min_sqft s, max_sqft s) (heights s).

(** ** The page (lines 77-167) *)

Inductive status : Type :=
  | Stopped
  | Completed
  | Crashed (e : exn).

(** The library calls after the guard that are handed table data and
    whose outcome the script does not decide: each returns or raises.
    - [sidebar_widgets]: the two multiselects and the slider of lines
      88-111, built from the options; what the user has selected.
    - [plotly_map]: [px.scatter_mapbox] and [st.plotly_chart], lines
      139-153.
    - [st_dataframe]: line 167. *)
Record frontend : Type := mkFrontend {
  sidebar_widgets : Sidebar -> outcome FilterCriteria;
  plotly_map : GeoDataFrame -> outcome unit;
  st_dataframe : GeoDataFrame -> outcome unit
}.

(** Lines 157-167: the table, last element of the page.  The view is
    given the filtered rows; which columns it shows is
    [display_cols_exist], below. *)
Definition table_view (ui : frontend) (filtered_df : GeoDataFrame)
    (shown : list event) : list event * status :=
  match st_dataframe ui filtered_df with
  | Raised e => (shown, Crashed e)
  | Returned _ => (shown ++ [StDataframe filtered_df], Completed)
  end.

(** One run of the script: what it showed and how it ended.  An
    exception nothing catches ends the run.  Headings and markdown are
    left out. *)
Definition page (reader : wkt_reader) (reply : outcome DataFrame)
    (ui : frontend) : list event * status :=
  match load_data_from_db reader reply with
  | (ev, Raised e) => (ev, Crashed e)
  | (ev, Returned geo_df) =>
      if empty_frame geo_df then
        (ev ++ [StWarning "No data to display. Please ensure Phase 1 ran successfully and populated the database."],
         Stopped)
      else
        match sidebar_options geo_df with
        | Raised e => (ev, Crashed e)
        | Returned sb =>
            match sidebar_widgets ui sb with
            | Raised e => (ev, Crashed e)
            | Returned c =>
                let filtered_df := apply_filters geo_df c in
                let m := summarize filtered_df in
                let cards :=
                  [StMetric "Total Properties"
                     (FmtInt "," (Z.of_nat (count m)));
                   StMetric "Total Square Footage"
                     (FmtFloat ".2f"
                        (NpTrueDiv (total_square_footage m) 1000000)
                        " M SF");
                   StMetric "Avg. Building Size (SF)" (average_shown m)] in
                if negb (empty_frame filtered_df) then
                  match plotly_map ui filtered_df with
                  | Raised e => (ev ++ cards, Crashed e)
                  | Returned _ =>
                      table_view ui filtered_df
                        (ev ++ cards ++ [StPlotlyChart filtered_df])
                  end
                else
                  table_view ui filtered_df
                    (ev ++ cards ++
                     [StWarning "No properties match the selected filters."])
            end
        end
  end.

(** ** Table view (lines 157-167) *)

Definition display_cols : list string :=
  ["address"; "city"; "state"; "zip_code"; "square_footage";
   "clear_height_ft"; "dock_doors"; "year_built";
   "last_sale_price"; "current_lease_rate_psf"; "is_vacant"].

(** [[col for col in display_cols if col in filtered_df.columns]] *)
Definition display_cols_exist (columns : list string) : list string :=
  List.filter (fun col => existsb (String.eqb col) columns) display_cols.

(** [frame[names]] on the column labels: the selected labels, or [None]
    for the KeyError pandas raises when a label is not a column. *)
Definition getitem_columns (columns names : list string)
  : option (list string) :=
  if forallb (fun col => existsb (String.eqb col) columns) names
  then Some names else None.

(** [frame[name] = values]: replaces the column if there is one of that
    name, appends it otherwise. *)
Definition set_column (name : string) (columns : list string) : list string :=
  if existsb (String.eqb name) columns then columns else columns ++ [name].

(** The columns of a loaded frame: the store's, the WKT text of the
    query, then [geometry], [lat] and [lon]. *)
Definition loaded_columns (store_columns : list string) : list string :=
  set_column "lon"
    (set_column "lat"
       (set_column "geometry" (store_columns ++ ["wkt_coordinates"]))).

(** ** Decoding outcome of a whole column *)

(** Whether a geometry text is missing or read as a point, which is what
    the loader needs of every row. *)
Definition text_ok (reader : wkt_reader) (text : option string) : bool :=
  match text with
  | None => true
  | Some s =>
      match reader s with Returned (Point _ _) => true | _ => false end
  end.

Definition text_rejected (reader : wkt_reader) (text : option string) : bool :=
  match text with
  | None => false
  | Some s => match reader s with Raised _ => true | Returned _ => false end
  end.

(** ** Sample data *)

(** A reader that knows three texts; every other text is rejected. *)
Definition sample_reader : wkt_reader := fun text =>
  if String.eqb text "POINT(-97.7 30.3)" then
    Returned (Point (Fin (-977 # 10)) (Fin (303 # 10)))
  else if String.eqb text "POINT(-96.8 32.8)" then
    Returned (Point (Fin (-968 # 10)) (Fin (328 # 10)))
  else if String.eqb text "LINESTRING(0 0, 1 1)" then
    Returned (OtherGeometry "LineString")
  else
    Raised (Exn "GEOSException" ("ParseException: " +:+ text)).

Definition sample_row (addr cty : string) (sqft height : Z)
    (wkt : option string) : Row :=
  mkRow addr cty "TX" "78701" sqft height 4 1999 None None false wkt.

Definition austin_row : Row :=
  sample_row "100 Congress Ave" "Austin" 1000 32 (Some "POINT(-97.7 30.3)").

Definition dallas_row : Row :=
  sample_row "200 Main St" "Dallas" 3000 28 (Some "POINT(-96.8 32.8)").

Definition null_geometry_row : Row :=
  sample_row "300 Elm St" "Dallas" 2000 28 None.

Definition linestring_row : Row :=
  sample_row "400 Oak St" "Austin" 2000 32 (Some "LINESTRING(0 0, 1 1)").

Definition malformed_row : Row :=
  sample_row "500 Pine St" "Austin" 2000 32 (Some "POINT(-97.7").

(** A loaded record of the given size, at Austin's point. *)
Definition sized (sqft : Z) : GeoRow :=
  mkGeoRow (sample_row "1 Test Way" "Austin" sqft 32 (Some "POINT(-97.7 30.3)"))
    (Some (Point (Fin (-977 # 10)) (Fin (303 # 10))))
    (Fin (303 # 10)) (Fin (-977 # 10)).

Definition four_sizes : GeoDataFrame :=
  [sized 500; sized 1000; sized 3000; sized 3500].

Definition range_1000_3000 : FilterCriteria :=
  mkCriteria ["Austin"] (1000, 3000) [32].

Definition no_city_selected : FilterCriteria :=
  mkCriteria [] (0, 1000000) [28; 32].

Definition one_frame_heap : heap :=
  {| frames := {[ 0%nat := four_sizes ]}; next_id := 1 |}.

Definition two_city_frame : GeoDataFrame :=
  [decoded_row sample_reader dallas_row; decoded_row sample_reader austin_row;
   decoded_row sample_reader null_geometry_row].

(** A frontend in which the user leaves the widgets alone and no call
    raises. *)
Definition untouched_ui : frontend :=
  {| sidebar_widgets := fun sb => Returned (default_selection sb);
     plotly_map := fun _ => Returned tt;
     st_dataframe := fun _ => Returned tt |}.

(** What a slider call raises in a frontend that refuses the slider. *)
Definition slider_error : exn :=
  Exn "StreamlitAPIException" "slider".

Definition failing_slider_ui : frontend :=
  {| sidebar_widgets := fun _ => Raised slider_error;
     plotly_map := fun _ => Returned tt;
     st_dataframe := fun _ => Returned tt |}.

Definition connection_refused : exn :=
  Exn "OperationalError" "could not connect to server: Connection refused".

(** * Properties *)

(** ** Filter engine *)

Section FilterEngine.
Context (c : FilterCriteria).

Lemma existsb_string_elem_of (v : string) (vs : list string) :
  existsb (String.eqb v) vs = true ↔ v ∈ vs.
Proof.
  rewrite existsb_exists, list_elem_of_In. split.
  - intros (w & Hin & Heq). apply String.eqb_eq in Heq. by subst.
  - intros Hin. exists v. split; [done | apply String.eqb_refl].
Qed.

Lemma existsb_Z_elem_of (v : Z) (vs : list Z) :
  existsb (Z.eqb v) vs = true ↔ v ∈ vs.
Proof.
  rewrite existsb_exists, list_elem_of_In. split.
  - intros (w & Hin & Heq). apply Z.eqb_eq in Heq. by subst.
  - intros Hin. exists v. split; [done | apply Z.eqb_refl].
Qed.

Lemma row_mask_Retained (r : GeoRow) : row_mask c r = true ↔ Retained c r.
Proof.
  unfold row_mask, Retained.
  rewrite !andb_true_iff, existsb_string_elem_of, existsb_Z_elem_of.
  rewrite !Z.leb_le. tauto.
Qed.

Lemma filter_mask_rows (t : GeoDataFrame) :
  filter_mask t c = map (row_mask c) t.
Proof.
  induction t as [|r t IH]; [done|].
  unfold filter_mask, mask_and, isin, between in *. simpl.
  by rewrite IH.
Qed.

Lemma apply_filters_cons (r : GeoRow) (t : GeoDataFrame) :
  apply_filters (r :: t) c
  = if row_mask c r then r :: apply_filters t c else apply_filters t c.
Proof. unfold apply_filters. by rewrite !filter_mask_rows. Qed.

Lemma apply_refines_spec (t : GeoDataFrame) :
  apply_filters t c = apply_filters_spec t c.
Proof.
  unfold apply_filters_spec. induction t as [|r t IH]; [done|].
  rewrite apply_filters_cons, filter_cons, IH.
  destruct (row_mask c r) eqn:Hm, (decide (Retained c r)) as [Hr|Hr];
    try done.
  - apply row_mask_Retained in Hm. done.
  - apply row_mask_Retained in Hr. congruence.
Qed.

Lemma apply_elem_of (t : GeoDataFrame) (r : GeoRow) :
  r ∈ apply_filters t c ↔ r ∈ t ∧ Retained c r.
Proof.
  rewrite apply_refines_spec. unfold apply_filters_spec.
  rewrite list_elem_of_filter. tauto.
Qed.

Lemma apply_sublist (t : GeoDataFrame) : apply_filters t c `sublist_of` t.
Proof. rewrite apply_refines_spec. apply sublist_filter. Qed.
End FilterEngine.

(** ** Object store *)

Lemma alloc_wf (df : GeoDataFrame) (h : heap) :
  heap_wf h → heap_wf (alloc df h).2.
Proof.
  intros Hwf l df'. simpl. intros Hl.
  apply lookup_insert_Some in Hl as [[<- _]|[_ Hl]]; [lia|].
  apply Hwf in Hl. lia.
Qed.

Lemma alloc_preserves (df : GeoDataFrame) (h : heap) (l : nat)
    (df' : GeoDataFrame) :
  heap_wf h → frames h !! l = Some df' → frames (alloc df h).2 !! l = Some df'.
Proof.
  intros Hwf Hl. simpl. rewrite lookup_insert_ne; [done|].
  apply Hwf in Hl. lia.
Qed.

Lemma filter_stmt_run (h : heap) (geo_df : nat) (t : GeoDataFrame)
    (c : FilterCriteria) :
  frames h !! geo_df = Some t →
  filter_stmt geo_df c h
  = Some (alloc (apply_filters t c) (alloc (apply_filters t c) h).2).
Proof.
  intros Hl. unfold filter_stmt, getitem_mask_obj, copy_obj.
  rewrite Hl. simpl.
  by rewrite lookup_insert_eq.
Qed.

Lemma heap_wf_one_frame : heap_wf one_frame_heap.
Proof.
  intros l df Hl. simpl in *.
  apply lookup_singleton_Some in Hl as [<- _]. lia.
Qed.

(** C1. [filtered_df] holds exactly the records of the table whose city is
    in the city set, whose square footage lies in the inclusive range and
    whose clear height is in the height set, in table order; it is a new
    object and every object already in the store, the input table
    included, keeps its value. *)
Theorem apply_retains_matching_rows (h : heap) (geo_df : nat)
    (t : GeoDataFrame) (c : FilterCriteria) :
  heap_wf h →
  frames h !! geo_df = Some t →
  apply_filters t c = apply_filters_spec t c
  ∧ apply_filters t c `sublist_of` t
  ∧ (∀ r, r ∈ apply_filters t c ↔ r ∈ t ∧ Retained c r)
  ∧ ∃ filtered_df h',
      filter_stmt geo_df c h = Some (filtered_df, h')
      ∧ frames h' !! filtered_df = Some (apply_filters t c)
      ∧ filtered_df ≠ geo_df
      ∧ frames h' !! geo_df = Some t
      ∧ ∀ l df, frames h !! l = Some df → frames h' !! l = Some df.
Proof.
  intros Hwf Hl.
  split; [apply apply_refines_spec|].
  split; [apply apply_sublist|].
  split; [intros r; apply apply_elem_of|].
  pose proof (alloc_wf (apply_filters t c) h Hwf) as Hwf1.
  assert (Hkeep : ∀ l df, frames h !! l = Some df →
            frames (alloc (apply_filters t c)
                      (alloc (apply_filters t c) h).2).2 !! l
            = Some df).
  { intros l df Hdf. apply alloc_preserves; [done|].
    by apply alloc_preserves. }
  eexists _, _. split; [by apply filter_stmt_run|].
  split; [simpl; by rewrite lookup_insert_eq|].
  split; [simpl; apply Hwf in Hl; lia|].
  split; [by apply Hkeep | exact Hkeep].
Qed.

Lemma apply_retains_matching_rows_witness :
  apply_filters four_sizes range_1000_3000 = [sized 1000; sized 3000]
  ∧ ∃ filtered_df h',
      filter_stmt 0%nat range_1000_3000 one_frame_heap = Some (filtered_df, h')
      ∧ frames h' !! filtered_df = Some [sized 1000; sized 3000]
      ∧ frames h' !! 0%nat = Some four_sizes.
Proof.
  destruct (apply_retains_matching_rows one_frame_heap 0%nat four_sizes
              range_1000_3000 heap_wf_one_frame eq_refl)
    as (_ & _ & _ & l & h' & Hrun & Hnew & _ & Hold & _).
  split; [reflexivity|].
  exists l, h'. split; [exact Hrun|]. split; [exact Hnew | exact Hold].
Defined.

(** C2. With no city selected the filter keeps nothing, whatever the
    square-footage range and the height set are. *)
Theorem apply_empty_city_set (t : GeoDataFrame) (c : FilterCriteria) :
  t ≠ [] → selected_cities c = [] → apply_filters t c = [].
Proof.
  intros _ Hc. rewrite apply_refines_spec. unfold apply_filters_spec.
  induction t as [|r t IH]; [done|].
  rewrite filter_cons_False; [done|].
  unfold Retained. rewrite Hc. intros [Hin _]. by apply elem_of_nil in Hin.
Qed.

Lemma apply_empty_city_set_witness :
  four_sizes ≠ [] ∧ apply_filters four_sizes no_city_selected = [].
Proof.
  split; [discriminate|].
  apply (apply_empty_city_set four_sizes no_city_selected);
    [discriminate | reflexivity].
Defined.

(** C9. Filtering a filtered table again with the same criteria changes
    nothing. *)
Theorem apply_idempotent (t : GeoDataFrame) (c : FilterCriteria) :
  apply_filters (apply_filters t c) c = apply_filters t c.
Proof.
  rewrite !apply_refines_spec. unfold apply_filters_spec.
  apply list_filter_filter_r. auto.
Qed.

(** ** Aggregator *)

Lemma wrap64_id (z : Z) : - 2 ^ 63 <= z < 2 ^ 63 → wrap64 z = z.
Proof. intros Hz. unfold wrap64. rewrite Z.mod_small; lia. Qed.

Lemma wrap64_add_wrap (a b : Z) : wrap64 (a + wrap64 b) = wrap64 (a + b).
Proof.
  unfold wrap64. f_equal.
  replace (a + ((b + 2 ^ 63) mod 2 ^ 64 - 2 ^ 63) + 2 ^ 63)
    with (a + (b + 2 ^ 63) mod 2 ^ 64) by lia.
  rewrite Zplus_mod_idemp_r. f_equal. lia.
Qed.

Lemma series_sum_wraps (col : list Z) :
  series_sum col = wrap64 (foldr Z.add 0 col).
Proof.
  induction col as [|v col IH]; [done|].
  simpl. rewrite IH. apply wrap64_add_wrap.
Qed.

Lemma exact_sum_rows (t : GeoDataFrame) :
  foldr Z.add 0 (map (λ r, square_footage (row r)) t)
  = foldr (λ r acc, square_footage (row r) + acc) 0 t.
Proof. induction t as [|r t IH]; simpl; [done | by rewrite IH]. Qed.




(** ** Geometry decoding *)

Section Decoding.
Context (reader : wkt_reader).

Lemma from_wkt_all_read (col : list (option string)) :
  (∀ s, Some s ∈ col → ∃ g, reader s = Returned g) →
  from_wkt reader col = ([], Returned (map (decode_text reader) col)).
Proof.
  induction col as [|[s|] col IH]; intros Hall; [done|..]; simpl.
  - destruct (Hall s) as [g Hg]; [left|]. rewrite Hg.
    rewrite IH; [done|]. intros s' Hs'. apply Hall. by right.
  - rewrite IH; [done|]. intros s' Hs'. apply Hall. by right.
Qed.

Lemma from_wkt_rejects (col : list (option string)) :
  (∃ s e, Some s ∈ col ∧ reader s = Raised e) →
  ∃ s e, Some s ∈ col ∧ reader s = Raised e
         ∧ from_wkt reader col = ([], Raised e).
Proof.
  induction col as [|[s|] col IH]; intros (s0 & e0 & Hin & Hrej).
  - by apply elem_of_nil in Hin.
  - simpl. destruct (reader s) as [g|e] eqn:Hs.
    + apply elem_of_cons in Hin as [Heq|Hin]; [congruence|].
      destruct IH as (s1 & e1 & Hin1 & Hrej1 & Hrun); [by eauto|].
      exists s1, e1. split; [by right|]. split; [done|]. by rewrite Hrun.
    + exists s, e. split; [left|]. done.
  - apply elem_of_cons in Hin as [Heq|Hin]; [done|]. simpl.
    destruct IH as (s1 & e1 & Hin1 & Hrej1 & Hrun); [by eauto|].
    exists s1, e1. split; [by right|]. split; [done|]. by rewrite Hrun.
Qed.

Lemma assign_lat_lon_decoded (df : DataFrame) :
  assign_lat_lon
    (with_geometry df (map (decode_text reader) (map wkt_coordinates df)))
    (map coord_y
       (map snd (with_geometry df
                   (map (decode_text reader) (map wkt_coordinates df)))))
    (map coord_x
       (map snd (with_geometry df
                   (map (decode_text reader) (map wkt_coordinates df)))))
  = map (decoded_row reader) df.
Proof.
  unfold with_geometry. induction df as [|r df IH]; [done|].
  simpl. by rewrite IH.
Qed.

Lemma geometry_column (df : DataFrame) (gs : list (option geometry)) :
  length gs = length df → map snd (with_geometry df gs) = gs.
Proof. intros Hlen. unfold with_geometry. by apply snd_zip; lia. Qed.
End Decoding.

(** ** Data loader *)

Section Loader.
Context (reader : wkt_reader).

Local Abbreviation loading :=
  (Print "Loading data from database using robust WKT method...").
Local Abbreviation loaded := (Print "Data loaded and converted successfully.").
Local Abbreviation load_error e :=
  (StError ("An error occurred while loading or processing data: "
            +:+ exn_msg e)).

Lemma load_raise_caught (reply : outcome DataFrame) (ev : list event)
    (e : exn) :
  load_body reader reply = (ev, Raised e) →
  load_data_from_db reader reply
  = (loading :: ev ++ [load_error e], Returned []).
Proof. intros Hbody. unfold load_data_from_db. rewrite Hbody. done. Qed.

Lemma load_return_kept (reply : outcome DataFrame) (ev : list event)
    (t : GeoDataFrame) :
  load_body reader reply = (ev, Returned t) →
  load_data_from_db reader reply = (loading :: ev, Returned t).
Proof. intros Hbody. unfold load_data_from_db. rewrite Hbody. done. Qed.

Lemma load_body_query_fails (cause : exn) :
  load_body reader (Raised cause) = ([], Raised cause).
Proof. done. Qed.

Lemma load_body_no_rows :
  load_body reader (Returned [])
  = ([StWarning "No data returned from the database."], Returned []).
Proof. done. Qed.

Lemma bind_returned {A B : Type} (a : A) (k : A → py B) :
  (x ← ([], Returned a); k x) = k a.
Proof. unfold mbind, py_mbind, py_bind. by destruct (k a). Qed.

Lemma bind_raised {A B : Type} (ev : list event) (e : exn) (k : A → py B) :
  (x ← (ev, Raised e); k x) = (ev, Raised e).
Proof. done. Qed.

Lemma empty_frame_false {A : Type} (df : list A) :
  df ≠ [] → empty_frame df = false.
Proof. by destruct df. Qed.

Lemma load_body_rejected (df : DataFrame) (e : exn) :
  df ≠ [] →
  from_wkt reader (map wkt_coordinates df) = ([], Raised e) →
  load_body reader (Returned df) = ([], Raised e).
Proof.
  intros Hne Hwkt. unfold load_body, read_sql.
  rewrite bind_returned, (empty_frame_false df Hne), Hwkt.
  apply bind_raised.
Qed.

Lemma load_body_read (df : DataFrame) :
  df ≠ [] →
  (∀ s, Some s ∈ map wkt_coordinates df → ∃ g, reader s = Returned g) →
  load_body reader (Returned df)
  = if forallb is_point (map (decode_text reader) (map wkt_coordinates df))
    then ([loaded], Returned (map (decoded_row reader) df))
    else ([], Raised (point_only "y")).
Proof.
  intros Hne Hall. pose proof (from_wkt_all_read reader _ Hall) as Hwkt.
  pose proof (assign_lat_lon_decoded reader df) as Hrows.
  pose proof (geometry_column df
                (map (decode_text reader) (map wkt_coordinates df))) as Hcol.
  rewrite !length_map in Hcol. specialize (Hcol eq_refl).
  rewrite Hcol in Hrows.
  unfold load_body, read_sql.
  rewrite bind_returned, (empty_frame_false df Hne), Hwkt, bind_returned.
  cbv zeta. rewrite empty_frame_false.
  2:{ unfold with_geometry. destruct df; [done|]. done. }
  unfold geoseries_y, geoseries_x. rewrite Hcol.
  destruct (forallb is_point _); [|done].
  simpl negb. cbv iota. unfold mret, py_mret, py_ret.
  rewrite !bind_returned, Hrows. done.
Qed.

Lemma all_points (col : list (option string)) :
  (∀ s, Some s ∈ col → ∃ x y, reader s = Returned (Point x y)) →
  forallb is_point (map (decode_text reader) col) = true.
Proof.
  intros Hall. apply forallb_forall. intros g Hg.
  apply in_map_iff in Hg as ([s|] & <- & Hin); [|done].
  apply list_elem_of_In, Hall in Hin as (x & y & Hs). simpl. by rewrite Hs.
Qed.

Lemma some_other_geometry (col : list (option string)) (s ty : string) :
  Some s ∈ col → reader s = Returned (OtherGeometry ty) →
  forallb is_point (map (decode_text reader) col) = false.
Proof.
  intros Hin Hs. apply not_true_is_false. intros Hall.
  rewrite forallb_forall in Hall.
  specialize (Hall (Some (OtherGeometry ty))). simpl in Hall.
  assert (false = true) as Habs; [|done].
  apply Hall, in_map_iff. exists (Some s).
  split; [simpl; by rewrite Hs | by apply list_elem_of_In].
Qed.
End Loader.

(** The record of a row whose text reads as the point (x, y) carries x as
    its longitude and y as its latitude. *)
Lemma load_attaches_lon_lat (reader : wkt_reader) (df : DataFrame)
    (r : Row) (s : string) (x y : pyfloat) :
  (∀ s', Some s' ∈ map wkt_coordinates df →
         ∃ x' y', reader s' = Returned (Point x' y')) →
  r ∈ df → wkt_coordinates r = Some s → reader s = Returned (Point x y) →
  ∃ ev t, load_data_from_db reader (Returned df) = (ev, Returned t)
          ∧ {| row := r; geometry_col := Some (Point x y);
               lat := y; lon := x |} ∈ t.
Proof.
  intros Hall Hr Hs Hxy.
  assert (df ≠ []) as Hne by (intros ->; by apply elem_of_nil in Hr).
  pose proof (load_body_read reader df Hne) as Hbody.
  rewrite (all_points reader _ Hall) in Hbody.
  eexists _, _. split.
  - apply load_return_kept, Hbody.
    intros s' Hs'. destruct (Hall s' Hs') as (x' & y' & ->). eauto.
  - apply list_elem_of_fmap. exists r. split; [|done].
    unfold decoded_row. rewrite Hs. simpl. by rewrite Hxy.
Qed.

(** C10. The loader always returns a frame and never lets an exception
    out: whatever is raised inside the try block ends as the empty frame,
    the value an empty data set gives as well. *)
Theorem load_data_from_db_total (reader : wkt_reader)
    (reply : outcome DataFrame) :
  ∃ ev t,
    load_data_from_db reader reply = (ev, Returned t)
    ∧ ∀ ev' e, load_body reader reply = (ev', Raised e) →
        t = [] ∧ (load_data_from_db reader (Returned [])).2 = Returned t.
Proof.
  destruct (load_body reader reply) as [ev' [t|e]] eqn:Hbody.
  - eexists _, t. split; [by apply load_return_kept|].
    intros ev'' e' Heq. discriminate.
  - eexists _, []. split; [by apply load_raise_caught|]. done.
Qed.

Lemma load_data_from_db_total_witness :
  ∃ ev, load_data_from_db sample_reader (Raised connection_refused)
        = (ev, Returned [])
        ∧ (load_data_from_db sample_reader (Returned [])).2 = Returned [].
Proof.
  destruct (load_data_from_db_total sample_reader (Raised connection_refused))
    as (ev & t & Hrun & Hfail).
  destruct (Hfail [] connection_refused eq_refl) as [Ht Hsame].
  exists ev. rewrite <- Ht. split; [exact Hrun | exact Hsame].
Defined.

(** C6, as the script has it.  When the query or the connection fails,
    the exception is caught inside the loader: the loader returns
    normally, having shown one error message that ends with the cause's
    text, and its result is the empty frame; the page then shows its
    no-data warning and stops. *)
Theorem query_failure_reported_and_halts (reader : wkt_reader) (cause : exn)
    (ui : frontend) :
  load_body reader (Raised cause) = ([], Raised cause)
  ∧ load_data_from_db reader (Raised cause)
    = ([Print "Loading data from database using robust WKT method...";
        StError ("An error occurred while loading or processing data: "
                 +:+ exn_msg cause)],
       Returned [])
  ∧ page reader (Raised cause) ui
    = ([Print "Loading data from database using robust WKT method...";
        StError ("An error occurred while loading or processing data: "
                 +:+ exn_msg cause);
        StWarning "No data to display. Please ensure Phase 1 ran successfully and populated the database."],
       Stopped).
Proof. done. Qed.

(** C6, as stated, fails: with the connection refused the loader does not
    end in an error, it returns. *)
Lemma query_failure_is_not_raised :
  ¬ ∃ ev cause,
      load_data_from_db sample_reader (Raised connection_refused)
      = (ev, Raised cause).
Proof. intros (ev & cause & Hrun). discriminate. Qed.

(** C7, as the script has it.  When the store returns no rows the loader
    returns the empty frame after one warning and no error message; a
    load that failed returns the same value and differs only in what it
    showed; the page stops on its no-data warning. *)
Theorem no_rows_warns_and_returns_empty (reader : wkt_reader)
    (ui : frontend) :
  load_data_from_db reader (Returned [])
  = ([Print "Loading data from database using robust WKT method...";
      StWarning "No data returned from the database."],
     Returned [])
  ∧ (∀ reply ev e, load_body reader reply = (ev, Raised e) →
       (load_data_from_db reader reply).2
       = (load_data_from_db reader (Returned [])).2
       ∧ (load_data_from_db reader reply).1
         ≠ (load_data_from_db reader (Returned [])).1)
  ∧ page reader (Returned []) ui
    = ([Print "Loading data from database using robust WKT method...";
        StWarning "No data returned from the database.";
        StWarning "No data to display. Please ensure Phase 1 ran successfully and populated the database."],
       Stopped).
Proof.
  split; [done|]. split; [|done].
  intros reply ev e Hbody. rewrite (load_raise_caught _ _ _ _ Hbody).
  split; [done|]. simpl. intros Heq.
  injection Heq as Heq.
  destruct ev as [|e1 [|e2 ev]]; simpl in Heq; discriminate.
Qed.

Lemma no_rows_warns_and_returns_empty_witness :
  (load_data_from_db sample_reader (Raised connection_refused)).2
  = (load_data_from_db sample_reader (Returned [])).2
  ∧ (load_data_from_db sample_reader (Raised connection_refused)).1
    ≠ (load_data_from_db sample_reader (Returned [])).1.
Proof.
  destruct (no_rows_warns_and_returns_empty sample_reader untouched_ui)
    as (_ & Hfail & _).
  exact (Hfail (Raised connection_refused) [] connection_refused eq_refl).
Defined.

(** C7, as stated, fails: the caller gets the same value from an empty
    data set and from a failed load, and the page ends the same way. *)
Lemma empty_result_same_as_failure :
  (load_data_from_db sample_reader (Returned [])).2
  = (load_data_from_db sample_reader (Raised connection_refused)).2
  ∧ (page sample_reader (Returned []) untouched_ui).2
    = (page sample_reader (Raised connection_refused) untouched_ui).2.
Proof. split; reflexivity. Qed.

Ltac each_text H :=
  repeat (apply elem_of_cons in H as [H|H];
          [injection H as ->; eexists; reflexivity|]);
  by apply elem_of_nil in H.

Ltac each_point H :=
  repeat (apply elem_of_cons in H as [H|H];
          [first [injection H as ->; eexists _, _; reflexivity
                 | discriminate H]|]);
  by apply elem_of_nil in H.

(** C5, as the script has it.  On a non-empty result: a text the WKT
    reader rejects ends the load with the reader's exception; when every
    text is read and one is not a point, the load ends with the ValueError
    of the y accessor; in both cases the loader shows one error message
    with the cause and returns the empty frame.  Otherwise every row is
    kept, in order; a missing text is not an error and gives a row without
    geometry and with NaN coordinates. *)
Theorem geometry_failure_aborts_load (reader : wkt_reader) (df : DataFrame) :
  df ≠ [] →
  ((∃ s e, Some s ∈ map wkt_coordinates df ∧ reader s = Raised e) →
   ∃ s e, Some s ∈ map wkt_coordinates df ∧ reader s = Raised e
     ∧ load_body reader (Returned df) = ([], Raised e)
     ∧ load_data_from_db reader (Returned df)
       = ([Print "Loading data from database using robust WKT method...";
           StError ("An error occurred while loading or processing data: "
                    +:+ exn_msg e)],
          Returned []))
  ∧ ((∀ s, Some s ∈ map wkt_coordinates df → ∃ g, reader s = Returned g) →
     (∃ s ty, Some s ∈ map wkt_coordinates df
              ∧ reader s = Returned (OtherGeometry ty)) →
     load_body reader (Returned df)
     = ([], Raised (Exn "ValueError"
                      "y attribute access only provided for Point geometries"))
     ∧ load_data_from_db reader (Returned df)
       = ([Print "Loading data from database using robust WKT method...";
           StError "An error occurred while loading or processing data: y attribute access only provided for Point geometries"],
          Returned []))
  ∧ ((∀ s, Some s ∈ map wkt_coordinates df →
           ∃ x y, reader s = Returned (Point x y)) →
     load_data_from_db reader (Returned df)
     = ([Print "Loading data from database using robust WKT method...";
         Print "Data loaded and converted successfully."],
        Returned (map (decoded_row reader) df))
     ∧ map row (map (decoded_row reader) df) = df
     ∧ ∀ r, r ∈ df → wkt_coordinates r = None →
         decoded_row reader r
         = {| row := r; geometry_col := None; lat := NaN; lon := NaN |}).
Proof.
  intros Hne. split; [|split].
  - intros Hrej.
    destruct (from_wkt_rejects reader _ Hrej) as (s & e & Hin & Hs & Hwkt).
    exists s, e. split; [done|]. split; [done|].
    pose proof (load_body_rejected reader df e Hne Hwkt) as Hbody.
    split; [done|]. by rewrite (load_raise_caught _ _ _ _ Hbody).
  - intros Hall (s & ty & Hin & Hs).
    pose proof (load_body_read reader df Hne Hall) as Hbody.
    rewrite (some_other_geometry reader _ s ty Hin Hs) in Hbody.
    split; [done|]. by rewrite (load_raise_caught _ _ _ _ Hbody).
  - intros Hall. split; [|split].
    + apply (load_return_kept reader (Returned df)
               [Print "Data loaded and converted successfully."]).
      rewrite load_body_read; [|done|].
      * by rewrite (all_points reader _ Hall).
      * intros s Hs. destruct (Hall s Hs) as (x & y & ->). eauto.
    + rewrite map_map. simpl. apply map_id.
    + intros r _ Hnull. unfold decoded_row. by rewrite Hnull.
Qed.

Lemma geometry_failure_aborts_load_witness :
  (∃ e, load_data_from_db sample_reader (Returned [austin_row; malformed_row])
        = ([Print "Loading data from database using robust WKT method...";
            StError ("An error occurred while loading or processing data: "
                     +:+ exn_msg e)],
           Returned []))
  ∧ load_data_from_db sample_reader (Returned [austin_row; linestring_row])
    = ([Print "Loading data from database using robust WKT method...";
        StError "An error occurred while loading or processing data: y attribute access only provided for Point geometries"],
       Returned [])
  ∧ load_data_from_db sample_reader (Returned [austin_row; dallas_row])
    = ([Print "Loading data from database using robust WKT method...";
        Print "Data loaded and converted successfully."],
       Returned [decoded_row sample_reader austin_row;
                 decoded_row sample_reader dallas_row]).
Proof.
  split; [|split].
  - destruct (geometry_failure_aborts_load sample_reader
                [austin_row; malformed_row]) as (Hrej & _ & _);
      [discriminate|].
    destruct Hrej as (s & e & _ & _ & _ & Hrun).
    + exists "POINT(-97.7", (Exn "GEOSException" "ParseException: POINT(-97.7").
      split; [right; left | reflexivity].
    + exists e. exact Hrun.
  - destruct (geometry_failure_aborts_load sample_reader
                [austin_row; linestring_row]) as (_ & Hother & _);
      [discriminate|].
    destruct Hother as [_ Hrun]; [| |exact Hrun].
    + intros s Hs. simpl in Hs. each_text Hs.
    + exists "LINESTRING(0 0, 1 1)", "LineString".
      split; [right; left | reflexivity].
  - destruct (geometry_failure_aborts_load sample_reader
                [austin_row; dallas_row]) as (_ & _ & Hok);
      [discriminate|].
    destruct Hok as [Hrun _]; [|exact Hrun].
    intros s Hs. simpl in Hs. each_point Hs.
Defined.

(** C5, as stated, fails on a null geometry text: the load succeeds and
    the row is kept, with NaN for both coordinates. *)
Lemma null_geometry_is_loaded :
  load_data_from_db sample_reader (Returned [null_geometry_row])
  = ([Print "Loading data from database using robust WKT method...";
      Print "Data loaded and converted successfully."],
     Returned [{| row := null_geometry_row; geometry_col := None;
                  lat := NaN; lon := NaN |}]).
Proof. reflexivity. Qed.

(** * Further properties *)

(** ** Filter engine: how selections compose *)

(** X1.  Widening the selection never loses a row: if every selected city and
    height of [c] is selected in [c'] and the range of [c] lies within that
    of [c'], the rows kept under [c] are kept, in order, under [c']. *)
Theorem apply_filters_monotone (t : GeoDataFrame) (c c' : FilterCriteria) :
  selected_cities c ⊆ selected_cities c' →
  fst (selected_sqft c') <= fst (selected_sqft c) →
  snd (selected_sqft c) <= snd (selected_sqft c') →
  selected_height c ⊆ selected_height c' →
  apply_filters t c `sublist_of` apply_filters t c'.
Proof.
  intros Hcity Hlo Hhi Hheight. rewrite !apply_refines_spec.
  unfold apply_filters_spec.
  rewrite <- (list_filter_filter_l (Retained c) (Retained c')).
  - apply sublist_filter.
  - intros r (Hc & [Hl Hh] & Hht). unfold Retained.
    split; [by apply Hcity|]. split; [lia | by apply Hheight].
Qed.

Lemma apply_filters_monotone_witness :
  apply_filters four_sizes range_1000_3000
  `sublist_of` apply_filters four_sizes (mkCriteria ["Austin"; "Dallas"] (0, 3500) [28; 32]).
Proof.
  apply apply_filters_monotone; simpl; [compute_done | lia | lia | compute_done].
Defined.

(** X2.  Two selections applied one after the other keep the same rows in
    either order. *)
Theorem apply_filters_commute (t : GeoDataFrame) (c1 c2 : FilterCriteria) :
  apply_filters (apply_filters t c1) c2 = apply_filters (apply_filters t c2) c1.
Proof.
  rewrite !apply_refines_spec. unfold apply_filters_spec.
  rewrite !list_filter_filter. apply list_filter_iff. tauto.
Qed.

(** X3.  Rows are judged one by one: filtering two tables laid end to end is
    filtering each and laying the results end to end. *)
Theorem apply_filters_app (t1 t2 : GeoDataFrame) (c : FilterCriteria) :
  apply_filters (t1 ++ t2) c = apply_filters t1 c ++ apply_filters t2 c.
Proof.
  rewrite !apply_refines_spec. unfold apply_filters_spec. apply filter_app.
Qed.

(** X4.  An empty height selection, or a range whose lower end is above its
    upper end, keeps no row. *)
Theorem apply_filters_nothing_selected (t : GeoDataFrame) (c : FilterCriteria) :
  selected_height c = [] ∨ snd (selected_sqft c) < fst (selected_sqft c) →
  apply_filters t c = [].
Proof.
  intros Hc. rewrite apply_refines_spec. unfold apply_filters_spec.
  induction t as [|r t IH]; [done|].
  rewrite filter_cons_False; [done|].
  intros (_ & [Hl Hh] & Hht). destruct Hc as [Hc|Hc]; [|lia].
  rewrite Hc in Hht. by apply elem_of_nil in Hht.
Qed.

Lemma apply_filters_nothing_selected_witness :
  apply_filters four_sizes (mkCriteria ["Austin"] (3000, 1000) [32]) = []
  ∧ apply_filters four_sizes (mkCriteria ["Austin"] (0, 5000) []) = [].
Proof.
  split; apply apply_filters_nothing_selected; simpl; [right; lia | by left].
Defined.

Lemma exact_sum_filtered (t : GeoDataFrame) (c : FilterCriteria) :
  (∀ r, r ∈ t → 0 <= square_footage (row r)) →
  0 <= foldr (λ r acc, square_footage (row r) + acc) 0 (apply_filters t c)
    <= foldr (λ r acc, square_footage (row r) + acc) 0 t.
Proof.
  intros Hpos. induction t as [|r t IH]; [done|].
  rewrite apply_filters_cons.
  assert (0 <= square_footage (row r)) as Hr by (apply Hpos; left).
  destruct IH as [IH0 IH1]; [intros r' Hr'; apply Hpos; by right|].
  destruct (row_mask c r); simpl; lia.
Qed.

(** X5.  The KPI cards of a filtered table never exceed those of the
    table it was filtered from: not the count, and, when no footage is
    negative and the table's exact total is an int64, not the total
    square footage, which is then non-negative as well. *)
Theorem summarize_filtered_bounded (t : GeoDataFrame) (c : FilterCriteria) :
  (∀ r, r ∈ t → 0 <= square_footage (row r)) →
  foldr (λ r acc, square_footage (row r) + acc) 0 t < 2 ^ 63 →
  (count (summarize (apply_filters t c)) <= count (summarize t))%nat
  ∧ 0 <= total_square_footage (summarize (apply_filters t c))
  ∧ total_square_footage (summarize (apply_filters t c))
    <= total_square_footage (summarize t).
Proof.
  intros Hpos Hfit. split; [apply sublist_length, apply_sublist|].
  destruct (exact_sum_filtered t c Hpos) as [H0 H1].
  cbn [summarize total_square_footage].
  rewrite !series_sum_wraps, !exact_sum_rows, !wrap64_id; lia.
Qed.

Lemma summarize_filtered_bounded_witness :
  (count (summarize (apply_filters four_sizes range_1000_3000)) <= 4)%nat
  ∧ 0 <= total_square_footage
           (summarize (apply_filters four_sizes range_1000_3000))
  ∧ total_square_footage (summarize (apply_filters four_sizes range_1000_3000))
    <= 8000.
Proof.
  apply (summarize_filtered_bounded four_sizes range_1000_3000).
  - intros r Hr. unfold four_sizes in Hr.
    repeat (apply elem_of_cons in Hr as [->|Hr]; [simpl; lia|]).
    by apply elem_of_nil in Hr.
  - simpl. lia.
Defined.

(** ** Sidebar widgets *)

Lemma string_leb_trans (a b c : string) :
  String.leb a b = true → String.leb b c = true → String.leb a c = true.
Proof.
  unfold String.leb. revert b c.
  induction a as [|x a IH]; intros [|y b] [|z c]; simpl; try done.
  unfold Ascii.compare.
  destruct (N.compare_spec (Ascii.N_of_ascii x) (Ascii.N_of_ascii y));
    destruct (N.compare_spec (Ascii.N_of_ascii y) (Ascii.N_of_ascii z));
    destruct (N.compare_spec (Ascii.N_of_ascii x) (Ascii.N_of_ascii z));
    try done; try lia.
  apply IH.
Qed.

Section SortedUnique.
Context {A : Type} (eqb leb : A → A → bool).
Context (eqb_eq : ∀ a b, eqb a b = true ↔ a = b).
Context (leb_total : ∀ a b, leb a b = true ∨ leb b a = true).
Context (leb_trans : ∀ a b c, leb a b = true → leb b c = true → leb a c = true).

Lemma existsb_eqb_elem_of (v : A) (vs : list A) :
  existsb (eqb v) vs = true ↔ v ∈ vs.
Proof.
  rewrite existsb_exists, list_elem_of_In. split.
  - intros (w & Hin & Heq). apply eqb_eq in Heq. by subst.
  - intros Hin. exists v. split; [done | by apply eqb_eq].
Qed.

Lemma unique_from_elem_of (seen col : list A) (x : A) :
  x ∈ unique_from eqb seen col ↔ x ∈ col ∧ x ∉ seen.
Proof.
  revert seen. induction col as [|v col IH]; intros seen; simpl.
  - split; [intros H; by apply elem_of_nil in H | intros [H _]; done].
  - destruct (existsb (eqb v) seen) eqn:Hseen.
    + apply existsb_eqb_elem_of in Hseen. rewrite IH, elem_of_cons.
      split; [tauto|]. intros [[->|Hx] Hn]; [done | tauto].
    + assert (v ∉ seen) as Hv.
      { intros Hin. apply existsb_eqb_elem_of in Hin. congruence. }
      rewrite !elem_of_cons, IH, elem_of_cons. split.
      * intros [->|[Hx Hn]]; [tauto|]. split; [tauto|]. tauto.
      * intros [[->|Hx] Hn]; [by left|].
        destruct (eqb x v) eqn:Hxv.
        { apply eqb_eq in Hxv. by left. }
        right. split; [done|]. intros [->|Hs]; [|done].
        assert (eqb v v = true) as Hvv by by apply eqb_eq. congruence.
Qed.

Lemma unique_from_NoDup (seen col : list A) : NoDup (unique_from eqb seen col).
Proof.
  revert seen. induction col as [|v col IH]; intros seen; simpl.
  - constructor.
  - destruct (existsb (eqb v) seen); [apply IH|].
    constructor; [|apply IH].
    rewrite unique_from_elem_of. intros [_ Hn]. apply Hn. by left.
Qed.

Lemma insert_sorted_Permutation (v : A) (l : list A) :
  insert_sorted leb v l ≡ₚ v :: l.
Proof.
  induction l as [|w l IH]; simpl; [done|].
  destruct (leb v w); [done|]. rewrite IH. apply Permutation_swap.
Qed.

Lemma sorted_Permutation (l : list A) : sorted leb l ≡ₚ l.
Proof.
  induction l as [|v l IH]; simpl; [done|].
  by rewrite insert_sorted_Permutation, IH.
Qed.

Lemma insert_sorted_StronglySorted (v : A) (l : list A) :
  StronglySorted (λ a b, leb a b = true) l →
  StronglySorted (λ a b, leb a b = true) (insert_sorted leb v l).
Proof.
  induction l as [|w l IH]; intros Hl; simpl.
  - constructor; [constructor | constructor].
  - apply StronglySorted_inv in Hl as [Hl Hw].
    destruct (leb v w) eqn:Hvw.
    + constructor; [by constructor|]. constructor; [done|].
      eapply Forall_impl; [exact Hw|]. intros z Hz. simpl in Hz. eauto.
    + constructor; [by apply IH|].
      rewrite insert_sorted_Permutation. constructor; [|done].
      destruct (leb_total v w); [congruence | done].
Qed.

Lemma sorted_StronglySorted (l : list A) :
  StronglySorted (λ a b, leb a b = true) (sorted leb l).
Proof.
  induction l as [|v l IH]; simpl; [constructor|].
  by apply insert_sorted_StronglySorted.
Qed.

Lemma sorted_unique_elem_of (col : list A) (x : A) :
  x ∈ sorted leb (unique eqb col) ↔ x ∈ col.
Proof.
  pose proof (sorted_Permutation (unique eqb col)) as Hp.
  rewrite Hp. unfold unique. rewrite unique_from_elem_of.
  split; [tauto|]. intros Hx. split; [done|]. intros H. by apply elem_of_nil in H.
Qed.

Lemma sorted_unique_spec (col : list A) :
  StronglySorted (λ a b, leb a b = true) (sorted leb (unique eqb col))
  ∧ NoDup (sorted leb (unique eqb col))
  ∧ ∀ x, x ∈ sorted leb (unique eqb col) ↔ x ∈ col.
Proof.
  split; [apply sorted_StronglySorted|]. split.
  - rewrite sorted_Permutation. apply unique_from_NoDup.
  - intros x. rewrite sorted_Permutation. unfold unique.
    rewrite unique_from_elem_of. split; [tauto|].
    intros Hx. split; [done|]. intros H. by apply elem_of_nil in H.
Qed.
End SortedUnique.

Lemma series_min_spec (v : Z) (col : list Z) :
  (∀ w, w ∈ v :: col → series_min v col <= w) ∧ series_min v col ∈ v :: col.
Proof.
  unfold series_min. induction col as [|u col [IHle IHin]]; simpl.
  - split; [|left]. intros w Hw. apply list_elem_of_singleton in Hw. lia.
  - split.
    + intros w Hw. apply elem_of_cons in Hw as [->|Hw].
      * pose proof (IHle v ltac:(left)). lia.
      * apply elem_of_cons in Hw as [->|Hw]; [lia|].
        pose proof (IHle w ltac:(by right)). lia.
    + destruct (Z.min_spec u (foldr Z.min v col)) as [[_ ->]|[_ ->]].
      * right; left.
      * apply elem_of_cons in IHin as [->|Hin]; [left | right; by right].
Qed.

Lemma series_max_spec (v : Z) (col : list Z) :
  (∀ w, w ∈ v :: col → w <= series_max v col) ∧ series_max v col ∈ v :: col.
Proof.
  unfold series_max. induction col as [|u col [IHle IHin]]; simpl.
  - split; [|left]. intros w Hw. apply list_elem_of_singleton in Hw. lia.
  - split.
    + intros w Hw. apply elem_of_cons in Hw as [->|Hw].
      * pose proof (IHle v ltac:(left)). lia.
      * apply elem_of_cons in Hw as [->|Hw]; [lia|].
        pose proof (IHle w ltac:(by right)). lia.
    + destruct (Z.max_spec u (foldr Z.max v col)) as [[_ ->]|[_ ->]].
      * apply elem_of_cons in IHin as [->|Hin]; [left | right; by right].
      * right; left.
Qed.

Lemma sidebar_options_returned (geo_df : GeoDataFrame) :
  geo_df ≠ [] → ∃ sb, sidebar_options geo_df = Returned sb.
Proof. destruct geo_df; [done | eauto]. Qed.

(** X7.  The options of the two multiselects are in ascending order, hold no
    value twice, and are exactly the cities, resp. clear heights, that
    occur in the loaded table. *)
Theorem sidebar_options_sorted_distinct (geo_df : GeoDataFrame) (sb : Sidebar) :
  sidebar_options geo_df = Returned sb →
  (StronglySorted (λ a b, String.leb a b = true) (cities sb)
   ∧ NoDup (cities sb)
   ∧ ∀ x, x ∈ cities sb ↔ ∃ r, r ∈ geo_df ∧ city (row r) = x)
  ∧ (StronglySorted (λ a b, a <= b) (heights sb)
     ∧ NoDup (heights sb)
     ∧ ∀ x, x ∈ heights sb ↔ ∃ r, r ∈ geo_df ∧ clear_height_ft (row r) = x).
Proof.
  destruct geo_df as [|r0 geo_df]; [done|]. intros [= <-]. cbn [cities heights].
  split.
  - destruct (sorted_unique_spec String.eqb String.leb String.eqb_eq
                String.leb_total string_leb_trans
                (map (λ r, city (row r)) (r0 :: geo_df))) as (Hs & Hn & He).
    split; [done|]. split; [done|]. intros x. rewrite He, list_elem_of_fmap.
    split; intros (r & H1 & H2); eauto.
  - destruct (sorted_unique_spec Z.eqb Z.leb Z.eqb_eq) with
      (col := map (λ r, clear_height_ft (row r)) (r0 :: geo_df))
      as (Hs & Hn & He).
    { intros a b. rewrite !Z.leb_le. lia. }
    { intros a b c. rewrite !Z.leb_le. lia. }
    split.
    { eapply StronglySorted_ind with
        (P := StronglySorted (λ a b : Z, a <= b)); [..|exact Hs].
      - constructor.
      - intros a l _ IH Hall. constructor; [done|].
        eapply Forall_impl; [exact Hall|]. intros z Hz. by apply Z.leb_le. }
    split; [done|]. intros x. rewrite He, list_elem_of_fmap.
    split; intros (r & H1 & H2); eauto.
Qed.

Lemma sidebar_options_sorted_distinct_witness :
  ∃ sb, sidebar_options two_city_frame = Returned sb
        ∧ cities sb = ["Austin"; "Dallas"] ∧ heights sb = [28; 32]
        ∧ NoDup (cities sb) ∧ NoDup (heights sb).
Proof.
  eexists. split; [reflexivity|]. split; [reflexivity|]. split; [reflexivity|].
  destruct (sidebar_options_sorted_distinct two_city_frame _ eq_refl)
    as ((_ & Hc & _) & (_ & Hh & _)).
  split; [exact Hc | exact Hh].
Defined.

(** X8.  The slider's two ends are square footages that occur in the table,
    and every row's square footage lies between them. *)
Theorem sidebar_slider_bounds (geo_df : GeoDataFrame) (sb : Sidebar) :
  sidebar_options geo_df = Returned sb →
  (∀ r, r ∈ geo_df → min_sqft sb <= square_footage (row r) <= max_sqft sb)
  ∧ (∃ r, r ∈ geo_df ∧ square_footage (row r) = min_sqft sb)
  ∧ (∃ r, r ∈ geo_df ∧ square_footage (row r) = max_sqft sb).
Proof.
  destruct geo_df as [|r0 geo_df]; [done|]. intros [= <-].
  cbn [min_sqft max_sqft].
  destruct (series_min_spec (square_footage (row r0))
              (map (λ r, square_footage (row r)) geo_df)) as [Hmin Hmin_in].
  destruct (series_max_spec (square_footage (row r0))
              (map (λ r, square_footage (row r)) geo_df)) as [Hmax Hmax_in].
  change (square_footage (row r0) :: map (λ r, square_footage (row r)) geo_df)
    with (map (λ r, square_footage (row r)) (r0 :: geo_df)) in *.
  split; [|split].
  - intros r Hr.
    assert (square_footage (row r)
            ∈ map (λ r, square_footage (row r)) (r0 :: geo_df)) as Hin.
    { apply list_elem_of_fmap. eauto. }
    split; [by apply Hmin | by apply Hmax].
  - apply list_elem_of_fmap in Hmin_in as (r & Heq & Hr). eauto.
  - apply list_elem_of_fmap in Hmax_in as (r & Heq & Hr). eauto.
Qed.

Lemma sidebar_slider_bounds_witness :
  ∃ sb, sidebar_options four_sizes = Returned sb
        ∧ min_sqft sb = 500 ∧ max_sqft sb = 3500
        ∧ min_sqft sb <= square_footage (row (sized 1000)) <= max_sqft sb.
Proof.
  eexists. split; [reflexivity|]. split; [reflexivity|]. split; [reflexivity|].
  apply (proj1 (sidebar_slider_bounds four_sizes _ eq_refl)).
  right; left.
Defined.

Lemma filter_all_retained (c : FilterCriteria) (t : GeoDataFrame) :
  (∀ r, r ∈ t → Retained c r) → apply_filters t c = t.
Proof.
  intros Hall. rewrite apply_refines_spec. unfold apply_filters_spec.
  induction t as [|r t IH]; [done|].
  rewrite filter_cons_True; [|apply Hall; left].
  rewrite IH; [done|]. intros r' Hr'. apply Hall. by right.
Qed.

Lemma default_selection_retains (geo_df : GeoDataFrame) (sb : Sidebar) :
  sidebar_options geo_df = Returned sb →
  ∀ r, r ∈ geo_df → Retained (default_selection sb) r.
Proof.
  destruct geo_df as [|r0 geo_df]; [done|]. intros [= <-] r Hr.
  unfold Retained, default_selection. cbn [selected_cities selected_sqft
    selected_height cities heights min_sqft max_sqft fst snd].
  destruct (series_min_spec (square_footage (row r0))
              (map (λ r, square_footage (row r)) geo_df)) as [Hmin _].
  destruct (series_max_spec (square_footage (row r0))
              (map (λ r, square_footage (row r)) geo_df)) as [Hmax _].
  assert (square_footage (row r)
          ∈ square_footage (row r0)
            :: map (λ r, square_footage (row r)) geo_df) as Hin.
  { change (square_footage (row r)
            ∈ map (λ r, square_footage (row r)) (r0 :: geo_df)).
    apply list_elem_of_fmap. eauto. }
  split; [|split; [split; [by apply Hmin | by apply Hmax]|]].
  - refine (proj2 (sorted_unique_elem_of String.eqb String.leb String.eqb_eq
                     (map (λ r, city (row r)) (r0 :: geo_df)) _) _).
    apply (list_elem_of_fmap_2 (λ r, city (row r))). done.
  - refine (proj2 (sorted_unique_elem_of Z.eqb Z.leb Z.eqb_eq
                     (map (λ r, clear_height_ft (row r)) (r0 :: geo_df)) _) _).
    apply (list_elem_of_fmap_2 (λ r, clear_height_ft (row r))). done.
Qed.

(** X9.  Before the user touches a widget nothing is filtered out: with the
    default selection (every city, the whole range, every height) the
    filtered table is the loaded table. *)
Theorem default_selection_keeps_all (geo_df : GeoDataFrame) (sb : Sidebar) :
  sidebar_options geo_df = Returned sb →
  apply_filters geo_df (default_selection sb) = geo_df.
Proof.
  intros Hsb. apply filter_all_retained.
  by apply default_selection_retains.
Qed.

Lemma default_selection_keeps_all_witness :
  ∃ sb, sidebar_options two_city_frame = Returned sb
        ∧ apply_filters two_city_frame (default_selection sb) = two_city_frame.
Proof.
  eexists. split; [reflexivity|].
  exact (default_selection_keeps_all two_city_frame _ eq_refl).
Defined.

(** ** Data loader: what a load can end in *)

Section LoadOutcome.
Context (reader : wkt_reader).

Lemma texts_ok_points (col : list (option string)) :
  forallb (text_ok reader) col = true ↔
  ∀ s, Some s ∈ col → ∃ x y, reader s = Returned (Point x y).
Proof.
  rewrite forallb_forall. split.
  - intros Hall s Hs. apply list_elem_of_In, Hall in Hs. simpl in Hs.
    destruct (reader s) as [[x y|ty]|e]; [eauto|done..].
  - intros Hall [s|] Hin; [|done]. apply list_elem_of_In, Hall in Hin.
    destruct Hin as (x & y & Hs). simpl. by rewrite Hs.
Qed.

Lemma texts_rejected_some (col : list (option string)) :
  existsb (text_rejected reader) col = true →
  ∃ s e, Some s ∈ col ∧ reader s = Raised e.
Proof.
  rewrite existsb_exists. intros ([s|] & Hin & Hrej); [|done].
  simpl in Hrej. destruct (reader s) as [g|e] eqn:Hs; [done|].
  exists s, e. split; [by apply list_elem_of_In | done].
Qed.

Lemma texts_rejected_none (col : list (option string)) :
  existsb (text_rejected reader) col = false →
  ∀ s, Some s ∈ col → ∃ g, reader s = Returned g.
Proof.
  intros Hnone s Hs. destruct (reader s) as [g|e] eqn:Hr; [eauto|].
  assert (existsb (text_rejected reader) col = true) as Habs; [|congruence].
  apply existsb_exists. exists (Some s).
  split; [by apply list_elem_of_In | simpl; by rewrite Hr].
Qed.

Lemma texts_other_geometry (col : list (option string)) :
  forallb (text_ok reader) col = false →
  existsb (text_rejected reader) col = false →
  ∃ s ty, Some s ∈ col ∧ reader s = Returned (OtherGeometry ty).
Proof.
  induction col as [|[s|] col IH]; simpl; [done|..].
  - destruct (reader s) as [[x y|ty]|e] eqn:Hs; simpl.
    + intros Hok Hrej. destruct (IH Hok Hrej) as (s' & ty & Hin & Hs').
      exists s', ty. split; [by right | done].
    + intros _ _. exists s, ty. split; [left | done].
    + done.
  - intros Hok Hrej. destruct (IH Hok Hrej) as (s' & ty & Hin & Hs').
    exists s', ty. split; [by right | done].
Qed.

(** On a non-empty reply the try block either returns every row decoded,
    when each text is missing or a point, or raises. *)
Lemma load_body_outcome (df : DataFrame) :
  df ≠ [] →
  (forallb (text_ok reader) (map wkt_coordinates df) = true
   ∧ load_body reader (Returned df)
     = ([Print "Data loaded and converted successfully."],
        Returned (map (decoded_row reader) df)))
  ∨ (forallb (text_ok reader) (map wkt_coordinates df) = false
     ∧ ∃ e, load_body reader (Returned df) = ([], Raised e)).
Proof.
  intros Hne.
  destruct (forallb (text_ok reader) (map wkt_coordinates df)) eqn:Hok.
  - left. split; [done|].
    pose proof (proj1 (texts_ok_points _) Hok) as Hpts.
    rewrite load_body_read; [|done|].
    + by rewrite (all_points reader _ Hpts).
    + intros s Hs. destruct (Hpts s Hs) as (x & y & ->). eauto.
  - right. split; [done|].
    destruct (existsb (text_rejected reader) (map wkt_coordinates df))
      eqn:Hrej.
    + destruct (from_wkt_rejects reader _ (texts_rejected_some _ Hrej))
        as (s & e & _ & _ & Hwkt).
      exists e. by apply load_body_rejected.
    + destruct (texts_other_geometry _ Hok Hrej) as (s & ty & Hin & Hs).
      exists (point_only "y"). rewrite load_body_read; [|done|].
      * by rewrite (some_other_geometry reader _ s ty Hin Hs).
      * by apply texts_rejected_none.
Qed.

Lemma decoded_rows_row (df : DataFrame) :
  map row (map (decoded_row reader) df) = df.
Proof. rewrite map_map. apply map_id. Qed.

Lemma decoded_rows_nonempty (df : DataFrame) :
  df ≠ [] → map (decoded_row reader) df ≠ [].
Proof. by destruct df. Qed.
End LoadOutcome.

(** X10.  A non-empty table from the loader is the whole reply: its rows are the
    store's rows in the store's order, none dropped and none added; each
    row's geometry is missing or a point, its latitude and longitude are
    that geometry's y and x, NaN when the geometry text was null; and the
    only thing shown was the two progress lines. *)
Theorem loaded_table_invariant (reader : wkt_reader)
    (reply : outcome DataFrame) (ev : list event) (t : GeoDataFrame) :
  load_data_from_db reader reply = (ev, Returned t) →
  t ≠ [] →
  reply = Returned (map row t)
  ∧ ev = [Print "Loading data from database using robust WKT method...";
          Print "Data loaded and converted successfully."]
  ∧ ∀ r, r ∈ t →
      geometry_col r = decode_text reader (wkt_coordinates (row r))
      ∧ is_point (geometry_col r) = true
      ∧ lat r = coord_y (geometry_col r)
      ∧ lon r = coord_x (geometry_col r)
      ∧ (wkt_coordinates (row r) = None → lat r = NaN ∧ lon r = NaN).
Proof.
  intros Hrun Hne. destruct reply as [df|cause].
  2:{ rewrite (load_raise_caught reader (Raised cause) [] cause eq_refl)
        in Hrun.
      injection Hrun as _ <-. done. }
  destruct df as [|r0 df].
  { rewrite (load_return_kept reader (Returned []) _ []
               (load_body_no_rows reader)) in Hrun.
    injection Hrun as _ <-. done. }
  destruct (load_body_outcome reader (r0 :: df)) as [[Hok Hb]|[_ [e Hb]]];
    [done|..].
  2:{ rewrite (load_raise_caught reader _ _ _ Hb) in Hrun.
      injection Hrun as _ <-. done. }
  rewrite (load_return_kept reader _ _ _ Hb) in Hrun.
  injection Hrun as <- <-. split; [|split; [done|]].
  - symmetry. apply (f_equal Returned).
    exact (decoded_rows_row reader (r0 :: df)).
  - intros r Hr.
    apply (list_elem_of_fmap_1 (decoded_row reader) (r0 :: df)) in Hr
      as (r' & -> & Hr').
    cbn [decoded_row row geometry_col lat lon].
    split; [done|]. split; [|split; [done|split; [done|]]].
    + rewrite forallb_forall in Hok.
      specialize (Hok (wkt_coordinates r')).
      assert (text_ok reader (wkt_coordinates r') = true) as Hr.
      { apply Hok, in_map. by apply list_elem_of_In. }
      unfold text_ok, decode_text in *.
      destruct (wkt_coordinates r') as [s|]; [|done].
      by destruct (reader s) as [[x y|ty]|e'].
    + by intros ->.
Qed.

Lemma loaded_table_invariant_witness :
  Returned [austin_row; null_geometry_row]
  = Returned (map row [decoded_row sample_reader austin_row;
                       decoded_row sample_reader null_geometry_row])
  ∧ lat (decoded_row sample_reader null_geometry_row) = NaN
  ∧ is_point (geometry_col (decoded_row sample_reader austin_row)) = true.
Proof.
  destruct (loaded_table_invariant sample_reader
              (Returned [austin_row; null_geometry_row]) _ _ eq_refl)
    as (Hreply & _ & Hrows); [discriminate|].
  split; [exact Hreply|].
  destruct (Hrows (decoded_row sample_reader null_geometry_row))
    as (_ & _ & _ & _ & Hnull); [right; left|].
  destruct (Hrows (decoded_row sample_reader austin_row))
    as (_ & Hpoint & _); [left|].
  split; [exact (proj1 (Hnull eq_refl)) | exact Hpoint].
Defined.

(** X11.  A load shows exactly one notice after its first progress line: the
    no-data warning, one error message, or the success line; rows are
    returned only with the success line. *)
Theorem load_shows_one_notice (reader : wkt_reader)
    (reply : outcome DataFrame) :
  ∃ notice t,
    load_data_from_db reader reply
    = ([Print "Loading data from database using robust WKT method...";
        notice],
       Returned t)
    ∧ ((notice = StWarning "No data returned from the database." ∧ t = [])
       ∨ (∃ e, notice
               = StError ("An error occurred while loading or processing data: "
                          +:+ exn_msg e)
               ∧ t = [])
       ∨ (notice = Print "Data loaded and converted successfully."
          ∧ t ≠ [])).
Proof.
  destruct reply as [[|r0 df]|cause].
  - eexists _, _. split; [reflexivity|]. by left.
  - destruct (load_body_outcome reader (r0 :: df)) as [[_ Hb]|[_ [e Hb]]];
      [done|..].
    + eexists _, _. split; [by apply load_return_kept|].
      right; right. done.
    + eexists _, _.
      split; [rewrite (load_raise_caught reader _ _ _ Hb); reflexivity|].
      right; left. eauto.
  - eexists _, _. split; [reflexivity|]. right; left. eauto.
Qed.

(** X12.  The exception a load reports is that of the first geometry text, in
    row order, that the reader rejects: texts after it are never read. *)
Theorem from_wkt_first_rejection (reader : wkt_reader)
    (before after : list (option string)) (s : string) (e : exn) :
  (∀ s', Some s' ∈ before → ∃ g, reader s' = Returned g) →
  reader s = Raised e →
  from_wkt reader (before ++ Some s :: after) = ([], Raised e).
Proof.
  intros Hbefore Hs. induction before as [|[s'|] before IH]; simpl.
  - by rewrite Hs.
  - destruct (Hbefore s') as [g Hg]; [left|]. rewrite Hg.
    rewrite IH; [done|]. intros s'' Hin. apply Hbefore. by right.
  - rewrite IH; [done|]. intros s'' Hin. apply Hbefore. by right.
Qed.

Lemma from_wkt_first_rejection_witness :
  from_wkt sample_reader
    ([Some "POINT(-97.7 30.3)"; None] ++ Some "POINT(-97.7" :: [Some "bad"])
  = ([], Raised (Exn "GEOSException" "ParseException: POINT(-97.7")).
Proof.
  apply from_wkt_first_rejection; [|reflexivity].
  intros s Hs. apply elem_of_cons in Hs as [Hs|Hs].
  - injection Hs as ->. eexists. reflexivity.
  - apply elem_of_cons in Hs as [Hs|Hs]; [discriminate|].
    by apply elem_of_nil in Hs.
Defined.

(** ** The page: when it stops, where it can fail, what the first run shows *)

Lemma table_view_status (ui : frontend) (t : GeoDataFrame)
    (shown : list event) :
  (table_view ui t shown).2 = Completed
  ∨ ∃ e, (table_view ui t shown).2 = Crashed e ∧ st_dataframe ui t = Raised e.
Proof.
  unfold table_view. destruct (st_dataframe ui t) as [[]|e]; [by left|].
  right. by exists e.
Qed.

Lemma page_at_guard (reader : wkt_reader) (reply : outcome DataFrame)
    (ui : frontend) (ev : list event) :
  load_data_from_db reader reply = (ev, Returned []) →
  (page reader reply ui).2 = Stopped.
Proof. intros Hrun. unfold page. by rewrite Hrun. Qed.

Lemma page_past_guard (reader : wkt_reader) (reply : outcome DataFrame)
    (ui : frontend) (ev : list event) (geo_df : GeoDataFrame) (sb : Sidebar) :
  load_data_from_db reader reply = (ev, Returned geo_df) →
  sidebar_options geo_df = Returned sb →
  (page reader reply ui).2 = Completed
  ∨ ∃ e, (page reader reply ui).2 = Crashed e
         ∧ (sidebar_widgets ui sb = Raised e
            ∨ ∃ c, sidebar_widgets ui sb = Returned c
                   ∧ (plotly_map ui (apply_filters geo_df c) = Raised e
                      ∨ st_dataframe ui (apply_filters geo_df c) = Raised e)).
Proof.
  intros Hrun Hsb. unfold page. rewrite Hrun.
  destruct geo_df as [|r0 geo_df]; [done|].
  cbn [empty_frame]. rewrite Hsb.
  destruct (sidebar_widgets ui sb) as [c|e] eqn:Hc; [|right; by eauto].
  cbv zeta.
  destruct (empty_frame (apply_filters (r0 :: geo_df) c)); cbn [negb].
  - destruct (table_view_status ui (apply_filters (r0 :: geo_df) c)
                (ev ++
                 [StMetric "Total Properties"
                    (FmtInt ","
                       (Z.of_nat
                          (count
                             (summarize (apply_filters (r0 :: geo_df) c)))));
                  StMetric "Total Square Footage"
                    (FmtFloat ".2f"
                       (NpTrueDiv
                          (total_square_footage
                             (summarize (apply_filters (r0 :: geo_df) c)))
                          1000000)
                       " M SF");
                  StMetric "Avg. Building Size (SF)"
                    (average_shown
                       (summarize (apply_filters (r0 :: geo_df) c)))] ++
                 [StWarning "No properties match the selected filters."]))
      as [Hdone|(e & Hcrash & He)]; [by left|].
    right. exists e. split; [done|]. right. exists c. eauto.
  - destruct (plotly_map ui (apply_filters (r0 :: geo_df) c)) as [[]|e] eqn:Hp.
    + match goal with
      | |- context [table_view ui ?t ?shown] =>
          destruct (table_view_status ui t shown)
            as [Hdone|(e & Hcrash & He)]
      end; [by left|].
      right. exists e. split; [done|]. right. exists c. eauto.
    + right. exists e. split; [done|]. right. exists c. eauto.
Qed.

(** X13.  A run goes past the empty-table guard exactly when the store
    replied with at least one row and every geometry text is null or
    read as a point; a failed query, an empty reply, a rejected text or a
    geometry that is not a point all stop the page at the guard.  Loading
    never ends the run in an uncaught exception: one can only come from
    the widget calls, from the chart call or from the table call. *)
Theorem page_guard_and_crashes (reader : wkt_reader)
    (reply : outcome DataFrame) (ui : frontend) :
  ((page reader reply ui).2 ≠ Stopped ↔
   ∃ df, reply = Returned df ∧ df ≠ []
         ∧ ∀ s, Some s ∈ map wkt_coordinates df →
                ∃ x y, reader s = Returned (Point x y))
  ∧ ∀ e, (page reader reply ui).2 = Crashed e →
      ∃ ev geo_df sb,
        load_data_from_db reader reply = (ev, Returned geo_df)
        ∧ sidebar_options geo_df = Returned sb
        ∧ (sidebar_widgets ui sb = Raised e
           ∨ ∃ c, sidebar_widgets ui sb = Returned c
                  ∧ (plotly_map ui (apply_filters geo_df c) = Raised e
                     ∨ st_dataframe ui (apply_filters geo_df c) = Raised e)).
Proof.
  destruct reply as [[|r0 df]|cause].
  - pose proof (page_at_guard reader (Returned []) ui _ eq_refl) as Hs.
    split; [|intros e He; rewrite Hs in He; done].
    rewrite Hs. split; [done|]. intros (df & [= <-] & Hne & _). done.
  - destruct (load_body_outcome reader (r0 :: df)) as [[Hok Hb]|[Hok [e Hb]]];
      [done|..].
    + pose proof (load_return_kept reader _ _ _ Hb) as Hrun.
      destruct (sidebar_options_returned (map (decoded_row reader) (r0 :: df)))
        as [sb Hsb]; [done|].
      pose proof (page_past_guard reader _ ui _ _ sb Hrun Hsb) as Hpast.
      split.
      * split.
        -- intros _. exists (r0 :: df). split; [done|]. split; [done|].
           by apply texts_ok_points.
        -- intros _ Hstopped.
           destruct Hpast as [Hd|(e & Hc & _)]; congruence.
      * intros e He. eexists _, _, sb. split; [exact Hrun|]. split; [done|].
        destruct Hpast as [Hd|(e' & Hc & Hwhere)]; [congruence|].
        assert (e' = e) as -> by congruence. done.
    + pose proof (load_raise_caught reader _ _ _ Hb) as Hrun.
      pose proof (page_at_guard reader _ ui _ Hrun) as Hs.
      split; [|intros e' He; rewrite Hs in He; done].
      rewrite Hs. split; [done|]. intros (df' & [= <-] & _ & Hpts).
      apply texts_ok_points in Hpts. congruence.
  - pose proof (page_at_guard reader (Raised cause) ui _ eq_refl) as Hs.
    split; [|intros e He; rewrite Hs in He; done].
    rewrite Hs. split; [done|]. intros (df & [=] & _).
Qed.

Lemma page_guard_and_crashes_witness :
  (page sample_reader (Returned [austin_row; null_geometry_row])
     untouched_ui).2 ≠ Stopped
  ∧ ∃ ev geo_df sb,
      load_data_from_db sample_reader (Returned [austin_row])
      = (ev, Returned geo_df)
      ∧ sidebar_options geo_df = Returned sb
      ∧ (sidebar_widgets failing_slider_ui sb = Raised slider_error
         ∨ ∃ c, sidebar_widgets failing_slider_ui sb = Returned c
                ∧ (plotly_map failing_slider_ui (apply_filters geo_df c)
                   = Raised slider_error
                   ∨ st_dataframe failing_slider_ui (apply_filters geo_df c)
                     = Raised slider_error)).
Proof.
  split.
  - apply (proj1 (page_guard_and_crashes sample_reader
                    (Returned [austin_row; null_geometry_row])
                    untouched_ui)).
    exists [austin_row; null_geometry_row].
    split; [reflexivity|]. split; [discriminate|].
    intros s Hs. simpl in Hs. each_point Hs.
  - apply (proj2 (page_guard_and_crashes sample_reader
                    (Returned [austin_row]) failing_slider_ui)).
    reflexivity.
Defined.

Lemma summarize_decoded (reader : wkt_reader) (df : DataFrame) :
  df ≠ [] →
  summarize (map (decoded_row reader) df)
  = {| count := length df;
       total_square_footage := series_sum (map square_footage df);
       average_square_footage := NpMean (map square_footage df);
       average_shown := FmtFloat ",.0f" (NpMean (map square_footage df)) "" |}.
Proof.
  intros Hne. unfold summarize. rewrite length_map, map_map. simpl.
  destruct df; [done|]. done.
Qed.

(** X14.  The first run on a clean reply shows the whole table, provided
    the user leaves the widgets at their defaults and the chart and the
    table calls return: the page completes, the first card counts every
    store row, the second shows the int64 total divided by 1_000_000, the
    third the mean of all square footages, and the map and the table
    receive every row. *)
Theorem first_run_shows_whole_table (reader : wkt_reader) (df : DataFrame)
    (ui : frontend) :
  df ≠ [] →
  (∀ s, Some s ∈ map wkt_coordinates df →
        ∃ x y, reader s = Returned (Point x y)) →
  (∀ sb, sidebar_options (map (decoded_row reader) df) = Returned sb →
         sidebar_widgets ui sb = Returned (default_selection sb)) →
  plotly_map ui (map (decoded_row reader) df) = Returned tt →
  st_dataframe ui (map (decoded_row reader) df) = Returned tt →
  page reader (Returned df) ui
  = ([Print "Loading data from database using robust WKT method...";
      Print "Data loaded and converted successfully.";
      StMetric "Total Properties" (FmtInt "," (Z.of_nat (length df)));
      StMetric "Total Square Footage"
        (FmtFloat ".2f"
           (NpTrueDiv (series_sum (map square_footage df)) 1000000)
           " M SF");
      StMetric "Avg. Building Size (SF)"
        (FmtFloat ",.0f" (NpMean (map square_footage df)) "");
      StPlotlyChart (map (decoded_row reader) df);
      StDataframe (map (decoded_row reader) df)],
     Completed).
Proof.
  intros Hne Hpts Hwidgets Hmap Htable.
  pose proof (decoded_rows_nonempty reader df Hne) as Hrows.
  destruct (sidebar_options_returned _ Hrows) as [sb Hsb].
  destruct (load_body_outcome reader df Hne) as [[_ Hb]|[Hok _]].
  2:{ apply texts_ok_points in Hpts. congruence. }
  unfold page. rewrite (load_return_kept reader _ _ _ Hb).
  rewrite (empty_frame_false _ Hrows), Hsb, (Hwidgets sb Hsb). cbv zeta.
  rewrite (filter_all_retained _ _ (default_selection_retains _ _ Hsb)).
  rewrite (empty_frame_false _ Hrows), (summarize_decoded reader df Hne).
  cbn [negb]. rewrite Hmap. unfold table_view. rewrite Htable. done.
Qed.

Lemma first_run_shows_whole_table_witness :
  ∃ ev,
    page sample_reader (Returned [austin_row; null_geometry_row]) untouched_ui
    = (ev, Completed).
Proof.
  eexists.
  apply (first_run_shows_whole_table sample_reader
           [austin_row; null_geometry_row] untouched_ui);
    [discriminate| |done..].
  intros s Hs. simpl in Hs. each_point Hs.
Defined.

(** ** Table view *)

Lemma display_cols_exist_elem_of (columns : list string) (col : string) :
  col ∈ display_cols_exist columns ↔ col ∈ display_cols ∧ col ∈ columns.
Proof.
  unfold display_cols_exist.
  rewrite list_elem_of_In, filter_In, <- list_elem_of_In.
  by rewrite existsb_string_elem_of.
Qed.

Lemma filter_sublist_of {A : Type} (f : A → bool) (l : list A) :
  List.filter f l `sublist_of` l.
Proof.
  induction l as [|x l IH]; simpl; [done|].
  destruct (f x); [by apply sublist_skip | by apply sublist_cons].
Qed.

Lemma set_column_elem_of (name col : string) (columns : list string) :
  col ∈ set_column name columns ↔ col = name ∨ col ∈ columns.
Proof.
  unfold set_column. destruct (existsb (String.eqb name) columns) eqn:Hin.
  - apply existsb_string_elem_of in Hin. split; [tauto|].
    intros [->|H]; done.
  - rewrite elem_of_app, list_elem_of_singleton. tauto.
Qed.

(** X15.  Selecting the columns that passed the existence test never raises a
    KeyError, whatever the frame's columns are; the columns shown keep the
    order of the allow-list, are exactly the allowed columns the frame
    has, and never include the helper columns the loader added. *)
Theorem display_cols_exist_safe (columns : list string) :
  getitem_columns columns (display_cols_exist columns)
  = Some (display_cols_exist columns)
  ∧ display_cols_exist columns `sublist_of` display_cols
  ∧ (∀ col, col ∈ display_cols_exist columns
            ↔ col ∈ display_cols ∧ col ∈ columns)
  ∧ ∀ col, col ∈ ["wkt_coordinates"; "geometry"; "lat"; "lon"] →
           col ∉ display_cols_exist columns.
Proof.
  split; [|split; [apply filter_sublist_of|split]].
  - unfold getitem_columns.
    assert (forallb (λ col, existsb (String.eqb col) columns)
              (display_cols_exist columns) = true) as ->; [|done].
    apply forallb_forall. intros col Hin.
    apply list_elem_of_In, display_cols_exist_elem_of in Hin as [_ Hin].
    by apply existsb_string_elem_of.
  - apply display_cols_exist_elem_of.
  - intros col Hhelper Hin.
    apply display_cols_exist_elem_of in Hin as [Hin _].
    unfold display_cols in Hin.
    repeat (apply elem_of_cons in Hhelper as [->|Hhelper];
            [by repeat (apply elem_of_cons in Hin as [Hin|Hin];
                        [discriminate|]);
                by apply elem_of_nil in Hin|]).
    by apply elem_of_nil in Hhelper.
Qed.

Lemma display_cols_exist_safe_witness :
  ("lat" ∉ display_cols_exist
             (loaded_columns (display_cols ++ ["coordinates"])))
  ∧ (getitem_columns ["city"; "lat"; "address"]
       (display_cols_exist ["city"; "lat"; "address"])
     = Some ["address"; "city"]).
Proof.
  split.
  - apply (display_cols_exist_safe
             (loaded_columns (display_cols ++ ["coordinates"]))).
    right; right; left.
  - exact (proj1 (display_cols_exist_safe ["city"; "lat"; "address"])).
Defined.

Lemma forallb_false_elem {A : Type} (f : A → bool) (l : list A) :
  forallb f l = false → ∃ x, x ∈ l ∧ f x = false.
Proof.
  induction l as [|x l IH]; simpl; [done|].
  destruct (f x) eqn:Hx; simpl.
  - intros Hl. destruct (IH Hl) as (y & Hy & Hf). exists y. split; [by right|done].
  - intros _. exists x. split; [left | done].
Qed.

(** X16.  Selecting the allow-list itself raises a KeyError exactly when the
    frame lacks one of its columns, which is the case the existence test
    is there for; on a frame that has them all the test removes nothing,
    and a loaded frame has them all whenever the store's table does. *)
Theorem display_cols_direct_selection (columns : list string) :
  (getitem_columns columns display_cols = None
   ↔ ∃ col, col ∈ display_cols ∧ col ∉ columns)
  ∧ ((∀ col, col ∈ display_cols → col ∈ columns) →
     display_cols_exist columns = display_cols
     ∧ display_cols_exist (loaded_columns columns) = display_cols).
Proof.
  split.
  - unfold getitem_columns.
    destruct (forallb _ display_cols) eqn:Hall.
    + split; [done|]. intros (col & Hin & Hnot).
      rewrite forallb_forall in Hall.
      apply list_elem_of_In, Hall, existsb_string_elem_of in Hin. done.
    + split; [intros _|done].
      destruct (forallb_false_elem _ _ Hall) as (col & Hin & Hnot).
      exists col. split; [done|].
      intros Hc. apply existsb_string_elem_of in Hc. congruence.
  - assert (Hfull : ∀ cols, (∀ col, col ∈ display_cols → col ∈ cols) →
                            display_cols_exist cols = display_cols).
    { intros cols Hall. unfold display_cols_exist.
      apply forallb_filter_id, forallb_forall. intros col Hin.
      apply existsb_string_elem_of, Hall. by apply list_elem_of_In. }
    intros Hall. split; [by apply Hfull|]. apply Hfull.
    intros col Hin. unfold loaded_columns.
    rewrite !set_column_elem_of, elem_of_app.
    right; right; right; left. by apply Hall.
Qed.

Lemma display_cols_direct_selection_witness :
  display_cols_exist (loaded_columns (display_cols ++ ["coordinates"]))
  = display_cols.
Proof.
  apply (display_cols_direct_selection (display_cols ++ ["coordinates"])).
  intros col Hin. apply elem_of_app. by left.
Defined.
